(** * Calorie Advisor (app.py): a shallow embedding and its properties

    The program is one Streamlit script: [get_gemini_response] wraps the
    outbound call to the generative model, [prepare_image] packages the
    uploaded file, and [main] renders one page per script run.

    Python values are embedded as follows.
    - [str] is a sequence of Unicode code points: [list N].  A literal of
      the source is written [py "..."], the UTF-8 text of the literal
      decoded to code points.
    - [bytes] is [list byte].
    - An exception carries whether its class derives from [Exception]
      and what [str(e)] does: return a text or raise.
    - Every Streamlit call of [main] appends one event to the page log, and
      so does the outbound [generate_content] call. *)

From Stdlib Require Import List PeanoNat NArith Bool Lia.
From Stdlib Require Import Strings.String Strings.Ascii Strings.Byte.
Import ListNotations.

Set Implicit Arguments.

(** ** Python strings *)

Module PyStr.

Definition char := N.
Definition str := list char.

(** Value bits of a continuation byte [10xxxxxx]. *)
Definition cont (b : byte) : N := N.land (Byte.to_N b) 63.

(** Decoder for the UTF-8 text of a source literal.  The source file is
    valid UTF-8, so the fall-through branches (a lead byte without its
    continuation bytes) are only there to make the function total. *)
Fixpoint utf8_decode (bs : list byte) : str :=
  match bs with
  | [] => []
  | b0 :: r0 =>
    let n0 := Byte.to_N b0 in
    if (n0 <? 128)%N then n0 :: utf8_decode r0
    else if (n0 <? 224)%N then
      match r0 with
      | b1 :: r1 =>
        (N.shiftl (N.land n0 31) 6 + cont b1)%N :: utf8_decode r1
      | [] => [n0]
      end
    else if (n0 <? 240)%N then
      match r0 with
      | b1 :: b2 :: r2 =>
        (N.shiftl (N.land n0 15) 12 + N.shiftl (cont b1) 6 + cont b2)%N
          :: utf8_decode r2
      | _ => n0 :: utf8_decode r0
      end
    else
      match r0 with
      | b1 :: b2 :: b3 :: r3 =>
        (N.shiftl (N.land n0 7) 18 + N.shiftl (cont b1) 12
         + N.shiftl (cont b2) 6 + cont b3)%N :: utf8_decode r3
      | _ => n0 :: utf8_decode r0
      end
  end.

(** A Python string literal. *)
Definition py (s : string) : str := utf8_decode (list_byte_of_string s).

(** The one-character literal ['\n']. *)
Definition LF : string := String "010"%char EmptyString.

(** [s.startswith(prefix)] *)
Fixpoint startswith (s prefix : str) : bool :=
  match prefix, s with
  | [], _ => true
  | _ :: _, [] => false
  | p :: prefix', c :: s' => (c =? p)%N && startswith s' prefix'
  end.

(** Left-to-right scan of [str.replace] for a non-empty [old]: [skip]
    counts the characters of a match that are still to be passed over, so
    that matches never overlap. *)
Fixpoint replace_scan (old new : str) (skip : nat) (s : str) : str :=
  match s with
  | [] => []
  | c :: s' =>
    match skip with
    | S k => replace_scan old new k s'
    | O =>
      if startswith s old
      then new ++ replace_scan old new (List.length old - 1) s'
      else c :: replace_scan old new 0 s'
    end
  end.

(** [s.replace(old, new)]: every non-overlapping occurrence of [old],
    leftmost first.  An empty [old] matches before every character and at
    the end. *)
Definition replace (s old new : str) : str :=
  match old with
  | [] => new ++ flat_map (fun c => c :: new) s
  | _ :: _ => replace_scan old new 0 s
  end.

(** [template.format( *args )] for the fragment of the format language
    the program uses: literal text, the doubled braces and the
    auto-numbered field [{}].  [None] stands for every other template:
    one Python rejects (a single brace, too few arguments) or one with
    field names, conversions or format specs. *)
Fixpoint format (template : str) (args : list str) : option str :=
  match template with
  | [] => Some []
  | c :: t1 =>
    if (c =? 123)%N then
      match t1 with
      | d :: t2 =>
        if (d =? 123)%N then option_map (cons c) (format t2 args)
        else if (d =? 125)%N then
          match args with
          | a :: args' => option_map (app a) (format t2 args')
          | [] => None
          end
        else None
      | [] => None
      end
    else if (c =? 125)%N then
      match t1 with
      | d :: t2 =>
        if (d =? 125)%N then option_map (cons c) (format t2 args) else None
      | [] => None
      end
    else option_map (cons c) (format t1 args)
  end.

End PyStr.

Import PyStr.

(** ** Exceptions and the page log *)

(** A raised exception.  [is_Exception] tells whether its class derives
    from [Exception] (what [except Exception] catches; it is [false] for
    [KeyboardInterrupt], [SystemExit] and the like).  [str(e)] returns
    the message of an [Exn] and raises for an [Unprintable], whose
    [__str__] fails. *)
Inductive exn : Type :=
| Exn (is_Exception : bool) (message : str)
| Unprintable (is_Exception : bool) (raised : exn).

Definition exn_is_Exception (e : exn) : bool :=
  match e with
  | Exn is_Exception _ => is_Exception
  | Unprintable is_Exception _ => is_Exception
  end.

Inductive outcome (A : Type) : Type :=
| Returns (a : A)
| Raises (e : exn).
Arguments Returns {A} a.
Arguments Raises {A} e.

(** [str(e)] *)
Definition exn_str (e : exn) : outcome str :=
  match e with
  | Exn _ message => Returns message
  | Unprintable _ raised => Raises raised
  end.

(** The file object [st.file_uploader] hands back. *)
Record UploadedFile := {
  name : str;
  type : str;
  getvalue : list byte
}.

(** The dict [{"mime_type": ..., "data": ...}] built by [prepare_image]. *)
Record Blob := {
  mime_type : str;
  data : list byte
}.

(** What [Image.open] returns: an image object over the open file. *)
Record Image := { fp : UploadedFile }.

(** An element of the list passed to [generate_content]. *)
Inductive content :=
| Part (b : Blob)
| Text (s : str).

(** The response object of the service; reading [.text] may raise. *)
Record Response := { text : outcome str }.

(** The [google.generativeai] collaborator of one script run. *)
Record GenAI := {
  GenerativeModel : str -> outcome unit;
  generate_content : str -> list content -> outcome Response
}.

(** One entry of the page log. *)
Inductive event :=
| SetPageConfig (page_title page_icon layout initial_sidebar_state : str)
| Markdown (body : str) (unsafe_allow_html : bool)
| Columns (spec : list nat) (gap : str)
| EnterColumn (i : nat)
| ExitColumn (i : nat)
| FileUploader (label : str) (type : list str) (help : str)
| ShowImage (image : Image) (caption : str) (use_container_width : bool)
| Button (label help type : str) (use_container_width disabled : bool)
| EnterSpinner (text : str)
| ExitSpinner
| Success (body : str)
| GenerateContent (model : str) (contents : list content).

(** Computations of the script: a result or an exception, and the events
    logged on the way. *)
Definition M (A : Type) : Type := outcome A * list event.

Definition ret {A} (a : A) : M A := (Returns a, []).

Definition raise {A} (e : exn) : M A := (Raises e, []).

Definition bind {A B} (m : M A) (k : A -> M B) : M B :=
  match m with
  | (Returns a, l1) => let (r, l2) := k a in (r, l1 ++ l2)
  | (Raises e, l1) => (Raises e, l1)
  end.

Definition emit (ev : event) : M unit := (Returns tt, [ev]).

Definition lift {A} (o : outcome A) : M A := (o, []).

(** [try: body / except Exception as e: handler(e)] *)
Definition try_except {A} (body : M A) (handler : exn -> M A) : M A :=
  match body with
  | (Returns a, l1) => (Returns a, l1)
  | (Raises e, l1) =>
    if exn_is_Exception e
    then let (r, l2) := handler e in (r, l1 ++ l2)
    else (Raises e, l1)
  end.

(** [with ctx: body] for a context manager that logs on entry and on
    exit and lets exceptions through. *)
Definition with_ctx {A} (enter leave : event) (body : M A) : M A :=
  let (r, l) := body in (r, enter :: l ++ [leave]).

Declare Scope py_scope.
Delimit Scope py_scope with py_monad.
Notation "x <- m ;; k" := (bind m (fun x => k))
  (at level 61, m at next level, right associativity) : py_scope.
Notation "m ;; k" := (bind m (fun _ => k))
  (at level 61, right associativity) : py_scope.
Open Scope py_scope.

(** [xs[i]] on a list. *)
Definition getitem {A} (xs : list A) (i : nat) : outcome A :=
  match nth_error xs i with
  | Some x => Returns x
  | None => Raises (Exn true (py "list index out of range"))
  end.

(** ** The program *)

Record Model := { model_name : str }.

(** [genai.GenerativeModel(name)]: the constructor raises or yields the
    handle of the named model. *)
Definition new_GenerativeModel (g : GenAI) (name : str) : M Model :=
  match GenerativeModel g name with
  | Raises e => raise e
  | Returns _ => ret {| model_name := name |}
  end.

(** [model.generate_content(contents)]: the outbound call, logged
    whatever its outcome. *)
Definition model_generate_content (g : GenAI) (model : Model)
    (contents : list content) : M Response :=
  emit (GenerateContent (model_name model) contents) ;;
  lift (generate_content g (model_name model) contents).

(** The body of the [try] block of [get_gemini_response]. *)
Definition external_call (g : GenAI) (image : list Blob) (prompt : str)
    : M str :=
  model <- new_GenerativeModel g (py "gemini-1.5-pro") ;;
  image0 <- lift (getitem image 0) ;;
  response <- model_generate_content g model [Part image0; Text prompt] ;;
  lift (text response).

(** Send image to Google's AI and get calorie information *)
Definition get_gemini_response (g : GenAI) (image : list Blob)
    (prompt : str) : M str :=
  try_except (external_call g image prompt)
    (fun e => message <- lift (exn_str e) ;; ret (py "Error: " ++ message)).

(** Convert uploaded image to format required by Google's AI *)
Definition prepare_image (uploaded_file : option UploadedFile)
    : option (list Blob) :=
  match uploaded_file with
  | Some f =>
    let bytes_data := getvalue f in
    let image_parts := [ {| mime_type := type f; data := bytes_data |} ] in
    Some image_parts
  | None => None
  end.

(** What one script run gets from outside: the file the user gave the
    upload control, the outcome of [Image.open] on a file, the outcome of
    [st.image] on the image (PIL reads the pixel data only then, and
    raises on a file it cannot read to the end), whether this run was
    started by a click on the button, and the service. *)
Record Run := {
  picked : option UploadedFile;
  Image_open : UploadedFile -> outcome Image;
  image_shown : Image -> outcome unit;
  clicked : bool;
  genai : GenAI
}.

(** Modelled from the spec: the extension by which the upload control
    filters, which the spec names without defining it; taken as what
    follows the last dot of the file name, a name without a dot having
    none. *)
Fixpoint extension (file_name : str) : option str :=
  match file_name with
  | [] => None
  | c :: rest =>
    match extension rest with
    | Some ext => Some ext
    | None => if (c =? 46)%N then Some rest else None
    end
  end.

(** [a == b] on strings. *)
Fixpoint str_eqb (a b : str) : bool :=
  match a, b with
  | [], [] => true
  | x :: a', y :: b' => (x =? y)%N && str_eqb a' b'
  | _, _ => false
  end.

(** Modelled from the spec: the upload control is Streamlit's and is not
    part of the repository.  The spec has it accept files with extensions
    restricted to the declared list and offer no file with another
    extension: the control hands the script the file the user gave it
    when the extension of its name is in [type], and no file otherwise. *)
Definition file_uploader (type : list str) (given : option UploadedFile)
    : option UploadedFile :=
  match given with
  | Some f =>
    match extension (name f) with
    | Some ext => if existsb (str_eqb ext) type then Some f else None
    | None => None
    end
  | None => None
  end.

Definition st_set_page_config (page_title page_icon layout sidebar : str)
    : M unit :=
  emit (SetPageConfig page_title page_icon layout sidebar).

Definition st_markdown (body : str) (unsafe_allow_html : bool) : M unit :=
  emit (Markdown body unsafe_allow_html).

Definition st_columns (spec : list nat) (gap : str) : M unit :=
  emit (Columns spec gap).

Definition with_column {A} (i : nat) (body : M A) : M A :=
  with_ctx (EnterColumn i) (ExitColumn i) body.

Definition st_file_uploader (r : Run) (label : str) (type : list str)
    (help : str) : M (option UploadedFile) :=
  emit (FileUploader label type help) ;; ret (file_uploader type (picked r)).

(** [st.image] raises, before anything is shown, on an image whose data
    cannot be read. *)
Definition st_image (r : Run) (image : Image) (caption : str)
    (use_container_width : bool) : M unit :=
  lift (image_shown r image) ;;
  emit (ShowImage image caption use_container_width).

(** [st.button]; the program never passes [disabled], which defaults to
    [False]. *)
Definition st_button (r : Run) (label help type : str)
    (use_container_width : bool) : M bool :=
  emit (Button label help type use_container_width false) ;; ret (clicked r).

Definition st_spinner {A} (text : str) (body : M A) : M A :=
  with_ctx (EnterSpinner text) ExitSpinner body.

Definition st_success (body : str) : M unit := emit (Success body).

Definition header_html : str := py "
        <div style='background-color: #161922; padding: 2rem 0; margin: -6rem -4rem 2rem -4rem;'>
            <div style='text-align: center; max-width: 1200px; margin: 0 auto;'>
                <h1 style='color: #fafafa; margin-bottom: 1rem; margin-top: 1rem;'>🍽️ Calorie Advisor AI</h1>
                <p style='color: #a8e6cf; font-size: 1.2rem;'>Get instant calorie information and health advice for your meals!</p>
            </div>
        </div>
    ".

Definition upload_types : list str := [py "jpg"; py "jpeg"; py "png"].

Definition prompt : str := py "
                    Please analyze this food image and provide:
                    1. List each food item and its calories
                    2. Total calories
                    3. Simple health advice

                    Format like this:
                    🍽️ FOOD ITEMS:
                    • [Food Item] - [Calories]
                    • [Food Item] - [Calories]

                    📊 TOTAL CALORIES: [Number]

                    💡 HEALTH TIPS:
                    • [Tip 1]
                    • [Tip 2]
                    ".

Definition result_template : str := py "
                            <div style='padding: 1.5rem; border-radius: 8px; margin-top: 1rem;'>
                            {}
                            </div>
                        ".

Definition placeholder_html : str := py "
                <div style='text-align: center; padding: 2rem;'>
                    <h3>Ready to analyze your meal?</h3>
                    <p>Upload a photo to get started!</p>
                </div>
            ".

Definition footer_html : str := py "
        <div style='text-align: center; padding: 2rem; margin-top: 3rem;'>
            <p>Powered by AI • Made with ❤️ for healthy eating</p>
        </div>
    ".

(** The text substitution applied to the response before it is embedded:
    [response.replace('\n', '<br>').replace('•', '◆')]. *)
Definition display_text (response : str) : str :=
  replace (replace response (py LF) (py "<br>")) (py "•") (py "◆").

(** A template that [format] cannot fill raises. *)
Definition str_format (template : str) (args : list str) : M str :=
  match format template args with
  | Some s => ret s
  | None => raise (Exn true (py "invalid format string"))
  end.

(** Main web app: one run of the script. *)
Definition main (r : Run) : M unit :=
  st_set_page_config (py "Calorie Advisor") (py "🍽️") (py "wide")
    (py "collapsed") ;;
  st_markdown header_html true ;;
  st_columns [1; 1] (py "large") ;;
  uploaded_file <- with_column 1 (
    st_markdown (py "### 📸 Upload Your Food Image") false ;;
    st_markdown (py "Take a photo or upload an existing image of your meal") false ;;
    st_file_uploader r (py "Supported formats: JPG, JPEG, PNG") upload_types
      (py "Make sure the image is clear and well-lit for best results")) ;;
  with_column 2 (
    match uploaded_file with
    | Some f =>
      image <- lift (Image_open r f) ;;
      st_image r image (py "Your Meal") true ;;
      analyze_button <- st_button r (py "🔍 Analyze Meal")
        (py "Click to get detailed calorie information") (py "primary") true ;;
      if analyze_button : bool then
        st_spinner (py "🤖 AI is analyzing your meal...") (
          match prepare_image uploaded_file with
          | Some image_data =>
            response <- get_gemini_response (genai r) image_data prompt ;;
            st_success (py "✨ Analysis Complete!") ;;
            body <- str_format result_template [display_text response] ;;
            st_markdown body true
          | None => ret tt
          end)
      else ret tt
    | None => st_markdown placeholder_html true
    end) ;;
  st_markdown footer_html true.

(** The file the upload control of [main] holds in a run: what
    [st.file_uploader] returns there. *)
Definition selected (r : Run) : option UploadedFile :=
  file_uploader upload_types (picked r).

(** A session is a sequence of script runs.  The script keeps nothing in
    [st.session_state] and assigns no module-level variable, so every run
    executes [main] from scratch on what that run gets from outside. *)
Definition run_session (runs : list Run) : list (M unit) := map main runs.

(** ** Reading the page log *)

(** The requests sent to the service: model name and contents of every
    [generate_content] call of the log, in order. *)
Definition requests (l : list event) : list (str * list content) :=
  flat_map (fun ev =>
    match ev with
    | GenerateContent model contents => [(model, contents)]
    | _ => []
    end) l.

(** The [type] argument of every upload control of the log. *)
Definition uploader_types (l : list event) : list (list str) :=
  flat_map (fun ev =>
    match ev with
    | FileUploader _ type _ => [type]
    | _ => []
    end) l.

(** An extension is offered by a page when an upload control of the page
    lists it. *)
Definition offered (l : list event) (ext : str) : Prop :=
  exists types, In types (uploader_types l) /\ In ext types.

Definition is_button (ev : event) : bool :=
  match ev with Button _ _ _ _ _ => true | _ => false end.

Definition is_enabled_button (ev : event) : bool :=
  match ev with Button _ _ _ _ disabled => negb disabled | _ => false end.

Definition is_image (ev : event) : bool :=
  match ev with ShowImage _ _ _ => true | _ => false end.

Definition is_success (ev : event) : bool :=
  match ev with Success _ => true | _ => false end.

Definition is_request (ev : event) : bool :=
  match ev with GenerateContent _ _ => true | _ => false end.

(** The request one uploaded file gives rise to. *)
Definition blob_of (f : UploadedFile) : Blob :=
  {| mime_type := type f; data := getvalue f |}.

Definition analysis_request (f : UploadedFile) : str * list content :=
  (py "gemini-1.5-pro", [Part (blob_of f); Text prompt]).

(** The log of the [generate_content] call on a list of parts. *)
Definition request_log (image : list Blob) (p : str) : list event :=
  match image with
  | b :: _ => [GenerateContent (py "gemini-1.5-pro") [Part b; Text p]]
  | [] => []
  end.

(** The events every page starts with: configuration, header and the
    upload column. *)
Definition page_top : list event :=
  [ SetPageConfig (py "Calorie Advisor") (py "🍽️") (py "wide")
      (py "collapsed");
    Markdown header_html true;
    Columns [1; 1] (py "large");
    EnterColumn 1;
    Markdown (py "### 📸 Upload Your Food Image") false;
    Markdown (py "Take a photo or upload an existing image of your meal")
      false;
    FileUploader (py "Supported formats: JPG, JPEG, PNG") upload_types
      (py "Make sure the image is clear and well-lit for best results");
    ExitColumn 1 ].

(** The preview and the action control of the result column. *)
Definition preview (img : Image) : list event :=
  [ ShowImage img (py "Your Meal") true;
    Button (py "🔍 Analyze Meal")
      (py "Click to get detailed calorie information") (py "primary")
      true false ].

(** The page shown while no file is selected. *)
Definition idle_page : list event :=
  page_top ++
  [ EnterColumn 2; Markdown placeholder_html true; ExitColumn 2;
    Markdown footer_html true ].

(** The text around the field of [result_template]. *)
Definition result_prefix : str := py "
                            <div style='padding: 1.5rem; border-radius: 8px; margin-top: 1rem;'>
                            ".

Definition result_suffix : str := py "
                            </div>
                        ".

Definition result_html (response : str) : str :=
  result_prefix ++ display_text response ++ result_suffix.

(** The success banner followed by the embedded result. *)
Definition result_events (response : str) : list event :=
  [ Success (py "✨ Analysis Complete!");
    Markdown (result_html response) true ].

(** The replacement table of the display transform, character by
    character, as the specification words it. *)
Definition subst (c : char) : str :=
  if (c =? 10)%N then py "<br>"
  else if (c =? 8226)%N then py "◆"
  else [c].

Definition display_spec (response : str) : str := flat_map subst response.

(** The two replacements of [display_text] taken in the other order. *)
Definition display_text_swapped (response : str) : str :=
  replace (replace response (py "•") (py "◆")) (py LF) (py "<br>").

(** The pages one run can produce, by what the run gets from outside. *)
Inductive page_of (r : Run) : M unit -> Prop :=
| page_idle :
    selected r = None ->
    page_of r (Returns tt, idle_page)
| page_undecodable (f : UploadedFile) (e : exn) :
    selected r = Some f -> Image_open r f = Raises e ->
    page_of r (Raises e, page_top ++ [EnterColumn 2; ExitColumn 2])
| page_unshowable (f : UploadedFile) (img : Image) (e : exn) :
    selected r = Some f -> Image_open r f = Returns img ->
    image_shown r img = Raises e ->
    page_of r (Raises e, page_top ++ [EnterColumn 2; ExitColumn 2])
| page_loaded (f : UploadedFile) (img : Image) :
    selected r = Some f -> Image_open r f = Returns img ->
    image_shown r img = Returns tt ->
    clicked r = false ->
    page_of r (Returns tt,
               page_top ++ EnterColumn 2 :: preview img
                 ++ [ExitColumn 2; Markdown footer_html true])
| page_analyzed (f : UploadedFile) (img : Image) (response : str)
    (l : list event) :
    selected r = Some f -> Image_open r f = Returns img ->
    image_shown r img = Returns tt ->
    clicked r = true ->
    get_gemini_response (genai r) [blob_of f] prompt = (Returns response, l) ->
    l = [] \/ l = request_log [blob_of f] prompt ->
    page_of r (Returns tt,
               page_top ++ EnterColumn 2 :: preview img
                 ++ EnterSpinner (py "🤖 AI is analyzing your meal...") :: l
                 ++ result_events response
                 ++ [ExitSpinner; ExitColumn 2; Markdown footer_html true])
| page_interrupted (f : UploadedFile) (img : Image) (e : exn)
    (l : list event) :
    selected r = Some f -> Image_open r f = Returns img ->
    image_shown r img = Returns tt ->
    clicked r = true ->
    get_gemini_response (genai r) [blob_of f] prompt = (Raises e, l) ->
    l = [] \/ l = request_log [blob_of f] prompt ->
    page_of r (Raises e,
               page_top ++ EnterColumn 2 :: preview img
                 ++ EnterSpinner (py "🤖 AI is analyzing your meal...") :: l
                 ++ [ExitSpinner; ExitColumn 2]).

(** ** Sample inputs *)

Definition sample_file : UploadedFile :=
  {| name := py "meal.png"; type := py "image/png";
     getvalue := [x89; x50; x4e; x47] |}.

Definition other_file : UploadedFile :=
  {| name := py "lunch.jpg"; type := py "image/jpeg";
     getvalue := [xff; xd8; xff] |}.

Definition rate_limited : exn :=
  Exn true (py "rate limited").

(** A service whose [generate_content] raises [e]. *)
Definition failing_service (e : exn) : GenAI :=
  {| GenerativeModel := fun _ => Returns tt;
     generate_content := fun _ _ => Raises e |}.

(** A service that answers every request with [answer]. *)
Definition answering_service (answer : str) : GenAI :=
  {| GenerativeModel := fun _ => Returns tt;
     generate_content := fun _ _ => Returns {| text := Returns answer |} |}.

(** A run started by a click on the button with [f] selected. *)
Definition click_run (f : UploadedFile) (g : GenAI) : Run :=
  {| picked := Some f;
     Image_open := fun f' => Returns {| fp := f' |};
     image_shown := fun _ => Returns tt;
     clicked := true;
     genai := g |}.

(** A run with no file selected. *)
Definition idle_run (g : GenAI) : Run :=
  {| picked := None;
     Image_open := fun f' => Returns {| fp := f' |};
     image_shown := fun _ => Returns tt;
     clicked := true;
     genai := g |}.

(** ** The script around [main] *)

(** What the module-level code gets from outside: the lookup
    [st.secrets[key]], which raises for a key it does not hold, and the
    value of [__name__]. *)
Record Host := {
  secrets : str -> outcome str;
  module_name : str
}.

(** What the script does, in order: the module-level calls and, inside
    [main], the entries of the page log. *)
Inductive script_event :=
| LoadDotenv
| Configure (api_key : str)
| Page (ev : event).

(** The whole file, top to bottom: [load_dotenv()], then
    [genai.configure(api_key=st.secrets['GOOGLE_API_KEY'])], then the
    function definitions, then [main()] under the [__name__] guard. *)
Definition script (h : Host) (r : Run) : outcome unit * list script_event :=
  match secrets h (py "GOOGLE_API_KEY") with
  | Raises e => (Raises e, [LoadDotenv])
  | Returns api_key =>
    if str_eqb (module_name h) (py "__main__")
    then let (o, l) := main r in
         (o, LoadDotenv :: Configure api_key :: map Page l)
    else (Returns tt, [LoadDotenv; Configure api_key])
  end.

(** ** More readings of the page log *)

Definition is_spinner (ev : event) : bool :=
  match ev with EnterSpinner _ | ExitSpinner => true | _ => false end.

(** The runs of a session in which the button was clicked on a selected
    file. *)
Definition clicks (runs : list Run) : list Run :=
  filter (fun r => clicked r
                   && match selected r with Some _ => true | None => false end)
    runs.

(** Every request of a session, in order. *)
Definition session_requests (runs : list Run) : list (str * list content) :=
  flat_map (fun page : M unit => requests (snd page)) (run_session runs).

(** ** More sample inputs *)


Definition unidentified_image : exn :=
  Exn true (py "cannot identify image file").

Definition truncated_image : exn :=
  Exn true (py "image file is truncated").


(** A service whose model constructor raises [e]. *)
Definition unbuildable_service (e : exn) : GenAI :=
  {| GenerativeModel := fun _ => Raises e;
     generate_content := fun _ _ => Returns {| text := Returns [] |} |}.

(** A service whose response raises [e] when its text is read. *)
Definition blocked_service (e : exn) : GenAI :=
  {| GenerativeModel := fun _ => Returns tt;
     generate_content := fun _ _ => Returns {| text := Raises e |} |}.

(** A run with [f] selected that [Image.open] rejects with [e]. *)
Definition corrupt_run (f : UploadedFile) (e : exn) (g : GenAI) : Run :=
  {| picked := Some f;
     Image_open := fun _ => Raises e;
     image_shown := fun _ => Returns tt;
     clicked := true;
     genai := g |}.

(** A run with [f] selected that [Image.open] accepts and [st.image]
    rejects with [e]. *)
Definition truncated_run (f : UploadedFile) (e : exn) (g : GenAI) : Run :=
  {| picked := Some f;
     Image_open := fun f' => Returns {| fp := f' |};
     image_shown := fun _ => Raises e;
     clicked := false;
     genai := g |}.

(** A program given to the upload control under an image media type. *)
Definition disguised_program : UploadedFile :=
  {| name := py "meal.exe"; type := py "image/png";
     getvalue := [x4d; x5a] |}.

(** A run with [f] selected and shown, the button not clicked. *)
Definition loaded_run (f : UploadedFile) (g : GenAI) : Run :=
  {| picked := Some f;
     Image_open := fun f' => Returns {| fp := f' |};
     image_shown := fun _ => Returns tt;
     clicked := false;
     genai := g |}.

(** The file [sample_file] under another name. *)
Definition renamed_file : UploadedFile :=
  {| name := py "secret-diet.png"; type := py "image/png";
     getvalue := [x89; x50; x4e; x47] |}.

(** A host started with [streamlit run] and holding the key. *)
Definition sample_host : Host :=
  {| secrets := fun key =>
       if str_eqb key (py "GOOGLE_API_KEY") then Returns (py "k-123")
       else Raises (Exn true key);
     module_name := py "__main__" |}.

(** Unfolds the Streamlit calls of [main] down to the page log. *)
Ltac run_page :=
  unfold main, st_set_page_config, st_markdown, st_columns, with_column,
    st_file_uploader, st_image, st_button, st_spinner, st_success,
    with_ctx, bind, emit, ret, lift, raise.

(** * Properties *)

(** ** Strings *)

Example py_ascii : py "<br>" = [60; 98; 114; 62]%N.
Proof. reflexivity. Qed.

Example py_bullet : py "•" = [8226]%N /\ py "◆" = [9670]%N /\ py LF = [10]%N.
Proof. repeat split. Qed.

Example py_emoji : py "🍽️" = [127869; 65039]%N.
Proof. reflexivity. Qed.

Example replace_example :
  replace (py "a--b---c") (py "--") (py "+") = py "a+b+-c"
  /\ replace (py "abc") [] (py "-") = py "-a-b-c-"
  /\ replace [] [] (py "-") = py "-".
Proof. repeat split. Qed.

Example format_example :
  format (py "{{x}} = {}!") [py "{}"] = Some (py "{x} = {}!")
  /\ format (py "{} {}") [py "a"] = None
  /\ format (py "}") [] = None.
Proof. repeat split. Qed.

Lemma str_eqb_eq (a b : str) : str_eqb a b = true -> a = b.
Proof.
  revert b. induction a as [|x a IH]; intros [|y b] H;
    try discriminate H; [reflexivity|].
  cbn in H. apply andb_true_iff in H as [Hxy Hab].
  apply N.eqb_eq in Hxy. subst y. f_equal. now apply IH.
Qed.

Lemma str_eqb_refl (a : str) : str_eqb a a = true.
Proof.
  induction a as [|x a IH]; [reflexivity|].
  cbn. now rewrite N.eqb_refl, IH.
Qed.

Lemma startswith_single (c : char) (s : str) (x : char) :
  startswith (x :: s) [c] = (x =? c)%N.
Proof. simpl. destruct s; apply andb_true_r. Qed.

(** Replacing a one-character [old] rewrites the string character by
    character. *)
Lemma replace_single (s : str) (c : char) (new : str) :
  replace s [c] new = flat_map (fun x => if (x =? c)%N then new else [x]) s.
Proof.
  unfold replace.
  induction s as [|x s IH]; [reflexivity|].
  cbn [replace_scan flat_map List.length Nat.sub].
  rewrite startswith_single, IH.
  destruct (x =? c)%N; reflexivity.
Qed.

Lemma flat_map_flat_map {A B C} (f : A -> list B) (g : B -> list C)
    (l : list A) :
  flat_map g (flat_map f l) = flat_map (fun a => flat_map g (f a)) l.
Proof.
  induction l as [|a l IH]; [reflexivity|].
  simpl. now rewrite flat_map_app, IH.
Qed.

Lemma subst_two_steps (c : char) :
  flat_map (fun x => if (x =? 8226)%N then py "◆" else [x])
    (if (c =? 10)%N then py "<br>" else [c]) = subst c.
Proof.
  unfold subst.
  destruct (c =? 10)%N eqn:Hnl; [reflexivity|].
  simpl. destruct (c =? 8226)%N; reflexivity.
Qed.

Lemma subst_two_steps_swapped (c : char) :
  flat_map (fun x => if (x =? 10)%N then py "<br>" else [x])
    (if (c =? 8226)%N then py "◆" else [c]) = subst c.
Proof.
  unfold subst.
  destruct (c =? 8226)%N eqn:Hb.
  - apply N.eqb_eq in Hb. subst c. reflexivity.
  - simpl. destruct (c =? 10)%N; [|reflexivity]. apply app_nil_r.
Qed.

(** The transform of the source is the character table of the
    specification. *)
Lemma display_text_spec (response : str) :
  display_text response = display_spec response.
Proof.
  unfold display_text, display_spec.
  change (py LF) with [10%N]. change (py "•") with [8226%N].
  rewrite !replace_single, flat_map_flat_map.
  apply flat_map_ext. intro c. apply subst_two_steps.
Qed.

Lemma display_text_swapped_spec (response : str) :
  display_text_swapped response = display_spec response.
Proof.
  unfold display_text_swapped, display_spec.
  change (py LF) with [10%N]. change (py "•") with [8226%N].
  rewrite !replace_single, flat_map_flat_map.
  apply flat_map_ext. intro c. apply subst_two_steps_swapped.
Qed.

Lemma display_text_app (s1 s2 : str) :
  display_text (s1 ++ s2) = display_text s1 ++ display_text s2.
Proof. rewrite !display_text_spec. apply flat_map_app. Qed.

Lemma subst_other (c : char) :
  c <> 10%N -> c <> 8226%N -> subst c = [c].
Proof.
  intros Hnl Hb. unfold subst.
  apply N.eqb_neq in Hnl, Hb. now rewrite Hnl, Hb.
Qed.

(** A character that is neither the newline nor the bullet stays where
    it is. *)
Lemma display_text_keeps (s1 s2 : str) (c : char) :
  c <> 10%N -> c <> 8226%N ->
  display_text (s1 ++ c :: s2) = display_text s1 ++ c :: display_text s2.
Proof.
  intros Hnl Hb.
  rewrite display_text_app, (display_text_spec (c :: s2)).
  unfold display_spec. cbn [flat_map].
  rewrite (subst_other Hnl Hb), <- display_text_spec. reflexivity.
Qed.

Lemma display_text_plain (s : str) :
  Forall (fun c => c <> 10%N /\ c <> 8226%N) s -> display_text s = s.
Proof.
  intros Hall. rewrite display_text_spec. unfold display_spec.
  induction Hall as [|c s [Hnl Hb] _ IH]; [reflexivity|].
  cbn [flat_map]. rewrite (subst_other Hnl Hb), IH. reflexivity.
Qed.

(** The template has one field and no other brace. *)
Lemma format_result_template (a : str) :
  format result_template [a] = Some (result_prefix ++ a ++ result_suffix).
Proof. vm_compute. reflexivity. Qed.

(** ** The call wrapper *)

Lemma try_except_returns {A} (a : A) (l : list event) (h : exn -> M A) :
  try_except (Returns a, l) h = (Returns a, l).
Proof. reflexivity. Qed.

Lemma try_except_caught {A} (e : exn) (l : list event) (h : exn -> M A) :
  exn_is_Exception e = true ->
  try_except (Raises e, l) h = (fst (h e), l ++ snd (h e)).
Proof. intros He. unfold try_except. rewrite He. now destruct (h e). Qed.


(** The [try] block logs nothing, or the one request it sent. *)
Lemma external_call_log (g : GenAI) (image : list Blob) (p : str) :
  snd (external_call g image p) = []
  \/ snd (external_call g image p) = request_log image p.
Proof.
  unfold external_call, new_GenerativeModel, model_generate_content.
  destruct (GenerativeModel g _) as [[]|e]; [|now left].
  destruct image as [|b image]; [now left|].
  right. cbn.
  destruct (generate_content g _ _) as [resp|e]; [|reflexivity].
  cbn. destruct (text resp); reflexivity.
Qed.

(** The wrapper adds no event to those of the [try] block. *)
Lemma get_gemini_response_log (g : GenAI) (image : list Blob) (p : str) :
  snd (get_gemini_response g image p) = snd (external_call g image p).
Proof.
  unfold get_gemini_response.
  destruct (external_call g image p) as [[a|e] l]; [reflexivity|].
  unfold try_except. destruct (exn_is_Exception e); [|reflexivity].
  unfold bind, lift, ret. destruct (exn_str e); cbn [snd]; apply app_nil_r.
Qed.

Lemma get_gemini_response_caught (g : GenAI) (image : list Blob) (p : str)
    (e : exn) (m : str) (l : list event) :
  external_call g image p = (Raises e, l) ->
  exn_is_Exception e = true ->
  exn_str e = Returns m ->
  get_gemini_response g image p = (Returns (py "Error: " ++ m), l).
Proof.
  intros Hcall He Hstr. unfold get_gemini_response.
  rewrite Hcall, try_except_caught by exact He.
  unfold bind, lift, ret. rewrite Hstr. cbn [fst snd].
  now rewrite !app_nil_r.
Qed.

(** An error whose [str] raises leaves the wrapper through the handler. *)
Lemma get_gemini_response_unprintable (g : GenAI) (image : list Blob)
    (p : str) (e e' : exn) (l : list event) :
  external_call g image p = (Raises e, l) ->
  exn_is_Exception e = true ->
  exn_str e = Raises e' ->
  get_gemini_response g image p = (Raises e', l).
Proof.
  intros Hcall He Hstr. unfold get_gemini_response.
  rewrite Hcall, try_except_caught by exact He.
  unfold bind, lift, ret. rewrite Hstr. cbn [fst snd].
  now rewrite !app_nil_r.
Qed.

Lemma get_gemini_response_returns (g : GenAI) (image : list Blob) (p : str)
    (answer : str) (l : list event) :
  external_call g image p = (Returns answer, l) ->
  get_gemini_response g image p = (Returns answer, l).
Proof. intros Hcall. unfold get_gemini_response. now rewrite Hcall. Qed.

(** ** The page of one run *)

(** No file selected: the placeholder page. *)
Lemma main_idle (r : Run) :
  selected r = None -> main r = (Returns tt, idle_page).
Proof.
  intros Hsel. unfold selected in Hsel. run_page. rewrite Hsel. reflexivity.
Qed.

(** A file that [Image.open] rejects: the exception leaves [main]. *)
Lemma main_undecodable (r : Run) (f : UploadedFile) (e : exn) :
  selected r = Some f -> Image_open r f = Raises e ->
  main r = (Raises e, page_top ++ [EnterColumn 2; ExitColumn 2]).
Proof.
  intros Hsel Himg. unfold selected in Hsel. run_page.
  rewrite Hsel, Himg. reflexivity.
Qed.

(** A file that [Image.open] accepts and [st.image] rejects: the
    exception leaves [main] before the button is reached. *)
Lemma main_unshowable (r : Run) (f : UploadedFile) (img : Image) (e : exn) :
  selected r = Some f -> Image_open r f = Returns img ->
  image_shown r img = Raises e ->
  main r = (Raises e, page_top ++ [EnterColumn 2; ExitColumn 2]).
Proof.
  intros Hsel Himg Hshow. unfold selected in Hsel. run_page.
  rewrite Hsel, Himg. cbn [fst snd]. rewrite Hshow. reflexivity.
Qed.

(** A file is shown and the button was not clicked. *)
Lemma main_loaded (r : Run) (f : UploadedFile) (img : Image) :
  selected r = Some f -> Image_open r f = Returns img ->
  image_shown r img = Returns tt -> clicked r = false ->
  main r = (Returns tt,
            page_top ++ EnterColumn 2 :: preview img
              ++ [ExitColumn 2; Markdown footer_html true]).
Proof.
  intros Hsel Himg Hshow Hclick. unfold selected in Hsel. run_page.
  rewrite Hsel, Himg. cbn [fst snd]. rewrite Hshow, Hclick. reflexivity.
Qed.

(** The button was clicked and the wrapper returned [response]. *)
Lemma main_analyzed (r : Run) (f : UploadedFile) (img : Image)
    (response : str) (l : list event) :
  selected r = Some f -> Image_open r f = Returns img ->
  image_shown r img = Returns tt -> clicked r = true ->
  get_gemini_response (genai r) [blob_of f] prompt = (Returns response, l) ->
  main r = (Returns tt,
            page_top ++ EnterColumn 2 :: preview img
              ++ EnterSpinner (py "🤖 AI is analyzing your meal...") :: l
              ++ result_events response
              ++ [ExitSpinner; ExitColumn 2; Markdown footer_html true]).
Proof.
  intros Hsel Himg Hshow Hclick Hresp. unfold selected in Hsel. run_page.
  rewrite Hsel, Himg. cbn [fst snd]. rewrite Hshow, Hclick.
  cbn [prepare_image].
  change {| mime_type := type f; data := getvalue f |} with (blob_of f).
  rewrite Hresp. unfold str_format. rewrite format_result_template.
  cbn. unfold result_events, result_html.
  rewrite <- !app_assoc. reflexivity.
Qed.

(** The button was clicked and an exception escaped the wrapper. *)
Lemma main_interrupted (r : Run) (f : UploadedFile) (img : Image)
    (e : exn) (l : list event) :
  selected r = Some f -> Image_open r f = Returns img ->
  image_shown r img = Returns tt -> clicked r = true ->
  get_gemini_response (genai r) [blob_of f] prompt = (Raises e, l) ->
  main r = (Raises e,
            page_top ++ EnterColumn 2 :: preview img
              ++ EnterSpinner (py "🤖 AI is analyzing your meal...") :: l
              ++ [ExitSpinner; ExitColumn 2]).
Proof.
  intros Hsel Himg Hshow Hclick Hresp. unfold selected in Hsel. run_page.
  rewrite Hsel, Himg. cbn [fst snd]. rewrite Hshow, Hclick.
  cbn [prepare_image].
  change {| mime_type := type f; data := getvalue f |} with (blob_of f).
  rewrite Hresp. cbn. rewrite <- !app_assoc. reflexivity.
Qed.

Lemma get_gemini_response_log_cases (g : GenAI) (image : list Blob)
    (p : str) (o : outcome str) (l : list event) :
  get_gemini_response g image p = (o, l) ->
  l = [] \/ l = request_log image p.
Proof.
  intros H.
  assert (Hl : l = snd (get_gemini_response g image p)) by now rewrite H.
  rewrite Hl, get_gemini_response_log. apply external_call_log.
Qed.

(** Every run produces one of the pages of [page_of]. *)
Lemma main_page_of (r : Run) : page_of r (main r).
Proof.
  destruct (selected r) as [f|] eqn:Hsel.
  - destruct (Image_open r f) as [img|e] eqn:Himg.
    + destruct (image_shown r img) as [[]|e] eqn:Hshow.
      * destruct (clicked r) eqn:Hclick.
        -- destruct (get_gemini_response (genai r) [blob_of f] prompt)
             as [[response|e] l] eqn:Hresp.
           ++ rewrite (main_analyzed r Hsel Himg Hshow Hclick Hresp).
              eapply page_analyzed;
                eauto using get_gemini_response_log_cases.
           ++ rewrite (main_interrupted r Hsel Himg Hshow Hclick Hresp).
              eapply page_interrupted;
                eauto using get_gemini_response_log_cases.
        -- rewrite (main_loaded r Hsel Himg Hshow Hclick).
           eapply page_loaded; eauto.
      * rewrite (main_unshowable r Hsel Himg Hshow).
        eapply page_unshowable; eauto.
    + rewrite (main_undecodable r Hsel Himg).
      eapply page_undecodable; eauto.
  - rewrite (main_idle r Hsel). now apply page_idle.
Qed.

(** ** The display transform *)

(** C1.  For every response text the displayed text is the response with
    every newline replaced by the string <br> and every bullet glyph
    (U+2022) replaced by the diamond glyph (U+25C6), every other
    character standing as it was, and the template embeds that text
    between its two fixed halves.  The response made of A, a newline, the
    bullet, a space and B is displayed as A<br>, the diamond, a space and
    B. *)
Theorem display_text_replaces_newline_and_bullet :
  (forall response : str,
     display_text response
     = flat_map (fun c => if (c =? 10)%N then py "<br>"
                          else if (c =? 8226)%N then py "◆"
                          else [c]) response
     /\ format result_template [display_text response]
        = Some (result_prefix ++ display_text response ++ result_suffix))
  /\ display_text (py ("A" ++ LF ++ "• B")) = py "A<br>◆ B".
Proof.
  split; [|reflexivity].
  intro response. split.
  - apply display_text_spec.
  - apply format_result_template.
Qed.

(** C10.  The two substitutions of the display transform commute:
    replacing newlines first and bullets second gives the same string as
    replacing bullets first and newlines second, and neither replacement
    string contains the character the other substitution looks for. *)
Theorem display_replacements_commute :
  (forall s : str,
     replace (replace s (py LF) (py "<br>")) (py "•") (py "◆")
     = replace (replace s (py "•") (py "◆")) (py LF) (py "<br>"))
  /\ existsb (N.eqb 8226) (py "<br>") = false
  /\ existsb (N.eqb 10) (py "◆") = false.
Proof.
  split; [|split; reflexivity].
  intro s.
  change (display_text s = display_text_swapped s).
  now rewrite display_text_spec, display_text_swapped_spec.
Qed.

(** C8.  When the wrapper returns a response on a clicked run, the page
    holds a markdown element with raw HTML allowed whose body is the
    result template around the transformed response, and every character
    of the response other than the newline and the bullet glyph, the
    markup characters included, stands unchanged in the transformed text
    at its place. *)
Theorem response_embedded_unescaped (r : Run) (f : UploadedFile)
    (img : Image) (response : str) (l : list event) :
  selected r = Some f -> Image_open r f = Returns img ->
  image_shown r img = Returns tt -> clicked r = true ->
  get_gemini_response (genai r) [blob_of f] prompt = (Returns response, l) ->
  In (Markdown (result_prefix ++ display_text response ++ result_suffix) true)
     (snd (main r))
  /\ (forall (s1 s2 : str) (c : char),
        response = s1 ++ c :: s2 -> c <> 10%N -> c <> 8226%N ->
        display_text response = display_text s1 ++ c :: display_text s2)
  /\ (Forall (fun c => c <> 10%N /\ c <> 8226%N) response ->
      display_text response = response).
Proof.
  intros Hsel Himg Hshow Hclick Hresp.
  rewrite (main_analyzed r Hsel Himg Hshow Hclick Hresp). cbn [snd].
  split; [|split].
  - apply in_or_app. right. right.
    apply in_or_app. right. right.
    apply in_or_app. right.
    apply in_or_app. left. right. left. reflexivity.
  - intros s1 s2 c -> Hnl Hb. now apply display_text_keeps.
  - apply display_text_plain.
Qed.

Lemma response_embedded_unescaped_witness :
  In (Markdown (result_prefix ++ py "<b>1 & 2</b>" ++ result_suffix) true)
     (snd (main (click_run sample_file (answering_service (py "<b>1 & 2</b>"))))).
Proof.
  pose proof (@response_embedded_unescaped
    (click_run sample_file (answering_service (py "<b>1 & 2</b>")))
    sample_file {| fp := sample_file |} (py "<b>1 & 2</b>")
    (request_log [blob_of sample_file] prompt)
    eq_refl eq_refl eq_refl eq_refl eq_refl) as [Hin [_ Hsame]].
  rewrite Hsame in Hin; [exact Hin|].
  vm_compute. repeat constructor; discriminate.
Defined.

(** ** Requests of a page *)

Lemma requests_app (l1 l2 : list event) :
  requests (l1 ++ l2) = requests l1 ++ requests l2.
Proof. apply flat_map_app. Qed.

Lemma requests_request_log (f : UploadedFile) :
  requests (request_log [blob_of f] prompt) = [analysis_request f].
Proof. reflexivity. Qed.

(** A page holds no request, or the one request of the selected file. *)
Lemma page_requests (r : Run) (page : M unit) :
  page_of r page ->
  requests (snd page) = []
  \/ exists f, selected r = Some f /\ clicked r = true
               /\ requests (snd page) = [analysis_request f].
Proof.
  intros [Hsel | f e Hsel Himg | f img e Hsel Himg Hshow
          | f img Hsel Himg Hshow Hclick
          | f img response l Hsel Himg Hshow Hclick Hresp [-> | ->]
          | f img e l Hsel Himg Hshow Hclick Hresp [-> | ->]];
    cbn [snd]; try (left; reflexivity);
    right; exists f; repeat split; assumption || reflexivity.
Qed.

(** With a model handle at hand the [try] block sends its request. *)
Lemma external_call_sends (g : GenAI) (b : Blob) (p : str) :
  GenerativeModel g (py "gemini-1.5-pro") = Returns tt ->
  snd (external_call g [b] p) = request_log [b] p.
Proof.
  intros Hmodel.
  unfold external_call, new_GenerativeModel, model_generate_content.
  rewrite Hmodel. cbn.
  destruct (generate_content g _ _) as [resp|e]; [|reflexivity].
  cbn. destruct (text resp); reflexivity.
Qed.

(** C3.  With no file selected the request builder returns the absent
    value, and whenever it does the page of the run holds no call of the
    external service. *)
Theorem no_file_no_external_call (r : Run) :
  prepare_image None = None
  /\ (prepare_image (selected r) = None ->
      requests (snd (main r)) = []
      /\ existsb is_request (snd (main r)) = false).
Proof.
  split; [reflexivity|].
  intros Hnone.
  destruct (selected r) as [f|] eqn:Hsel; [discriminate|].
  rewrite (main_idle r Hsel). split; reflexivity.
Qed.

Lemma no_file_no_external_call_witness :
  requests (snd (main (idle_run (answering_service (py "unused"))))) = [].
Proof.
  apply (no_file_no_external_call (idle_run (answering_service (py "unused")))).
  reflexivity.
Defined.

(** C4.  For a selected file the request builder yields exactly one part,
    holding the raw bytes and the declared media type of the file; the
    page of a run with that file holds at most one call of the service,
    every such call carries that part and the fixed prompt and nothing
    else, and a clicked run whose image decodes and whose model handle is
    built sends exactly that one request. *)
Theorem one_request_per_click (r : Run) (f : UploadedFile) :
  selected r = Some f ->
  prepare_image (Some f)
  = Some [ {| mime_type := type f; data := getvalue f |} ]
  /\ List.length (requests (snd (main r))) <= 1
  /\ (forall q, In q (requests (snd (main r))) ->
        q = (py "gemini-1.5-pro",
             [ Part {| mime_type := type f; data := getvalue f |};
               Text prompt ]))
  /\ (forall img, Image_open r f = Returns img ->
        image_shown r img = Returns tt -> clicked r = true ->
        GenerativeModel (genai r) (py "gemini-1.5-pro") = Returns tt ->
        requests (snd (main r))
        = [ (py "gemini-1.5-pro",
             [ Part {| mime_type := type f; data := getvalue f |};
               Text prompt ]) ]).
Proof.
  intros Hsel. split; [reflexivity|].
  change (py "gemini-1.5-pro",
          [ Part {| mime_type := type f; data := getvalue f |}; Text prompt ])
    with (analysis_request f).
  destruct (page_requests (main_page_of r)) as [Hnone | [f' [Hsel' [_ Hone]]]].
  - rewrite Hnone. split; [cbn; lia|]. split; [intros q []|].
    intros img Himg Hshow Hclick Hmodel. exfalso.
    destruct (get_gemini_response (genai r) [blob_of f] prompt)
      as [[response|e] l] eqn:Hresp.
    + pose proof (get_gemini_response_log (genai r) [blob_of f] prompt) as Hl.
      rewrite Hresp, (external_call_sends _ _ _ Hmodel) in Hl. cbn [snd] in Hl.
      rewrite (main_analyzed r Hsel Himg Hshow Hclick Hresp), Hl in Hnone.
      discriminate Hnone.
    + pose proof (get_gemini_response_log (genai r) [blob_of f] prompt) as Hl.
      rewrite Hresp, (external_call_sends _ _ _ Hmodel) in Hl. cbn [snd] in Hl.
      rewrite (main_interrupted r Hsel Himg Hshow Hclick Hresp), Hl in Hnone.
      discriminate Hnone.
  - assert (f' = f) by congruence. subst f'. rewrite Hone.
    split; [cbn; lia|]. split.
    + intros q [<- | []]. reflexivity.
    + reflexivity.
Qed.

Lemma one_request_per_click_witness :
  requests (snd (main (click_run sample_file (answering_service (py "ok")))))
  = [ (py "gemini-1.5-pro",
       [ Part {| mime_type := py "image/png"; data := [x89; x50; x4e; x47] |};
         Text prompt ]) ].
Proof.
  destruct (@one_request_per_click
    (click_run sample_file (answering_service (py "ok"))) sample_file eq_refl)
    as [_ [_ [_ Hsent]]].
  exact (Hsent {| fp := sample_file |} eq_refl eq_refl eq_refl eq_refl).
Defined.

(** An error raised by [generate_content] itself leaves the [try] block
    after the request was logged. *)
Lemma external_call_raises (g : GenAI) (b : Blob) (p : str) (e : exn) :
  GenerativeModel g (py "gemini-1.5-pro") = Returns tt ->
  generate_content g (py "gemini-1.5-pro") [Part b; Text p] = Raises e ->
  external_call g [b] p = (Raises e, request_log [b] p).
Proof.
  intros Hmodel Hcall.
  unfold external_call, new_GenerativeModel, model_generate_content.
  rewrite Hmodel. cbn -[py]. rewrite Hcall. reflexivity.
Qed.

(** C2.  For every image payload and prompt, if the external call made
    in the wrapper raises an error (an exception deriving from Exception)
    with message m, the wrapper returns the string Error: followed by m
    and raises nothing; a clicked run on an image that decodes and is
    shown then returns normally, showing that string in the result slot,
    and every later run of the session is rendered as it would be on its
    own. *)
Theorem service_error_becomes_text (g : GenAI) (image : list Blob)
    (p : str) (e : exn) (m : str) (l : list event) :
  external_call g image p = (Raises e, l) ->
  exn_is_Exception e = true ->
  exn_str e = Returns m ->
  get_gemini_response g image p = (Returns (py "Error: " ++ m), l)
  /\ forall (r : Run) (f : UploadedFile) (img : Image),
       genai r = g -> image = [blob_of f] -> p = prompt ->
       selected r = Some f -> Image_open r f = Returns img ->
       image_shown r img = Returns tt ->
       clicked r = true ->
       fst (main r) = Returns tt
       /\ In (Markdown (result_html (py "Error: " ++ m)) true)
             (snd (main r))
       /\ forall later : list Run,
            run_session (r :: later) = main r :: map main later.
Proof.
  intros Hcall He Hstr.
  pose proof (get_gemini_response_caught _ _ _ Hcall He Hstr) as Hresp.
  split; [exact Hresp|].
  intros r f img <- -> -> Hsel Himg Hshow Hclick.
  pose proof (main_analyzed r Hsel Himg Hshow Hclick Hresp) as Hmain.
  split; [now rewrite Hmain|]. split; [|reflexivity].
  rewrite Hmain. cbn [snd].
  apply in_or_app. right. right.
  apply in_or_app. right. right.
  apply in_or_app. right.
  apply in_or_app. left. right. left. reflexivity.
Qed.

Lemma service_error_becomes_text_witness :
  get_gemini_response (failing_service rate_limited) [blob_of sample_file]
    prompt
  = (Returns (py "Error: rate limited"),
     request_log [blob_of sample_file] prompt)
  /\ fst (main (click_run sample_file (failing_service rate_limited)))
     = Returns tt.
Proof.
  destruct (@service_error_becomes_text
    (failing_service rate_limited) [blob_of sample_file] prompt rate_limited
    (py "rate limited")
    (request_log [blob_of sample_file] prompt) eq_refl eq_refl eq_refl)
    as [Hresp Hpage].
  split; [exact Hresp|].
  exact (proj1 (Hpage (click_run sample_file (failing_service rate_limited))
                  sample_file {| fp := sample_file |}
                  eq_refl eq_refl eq_refl eq_refl eq_refl eq_refl eq_refl)).
Defined.

(** C5.  In a session, the page of a run with file f selected is the page
    of that run alone, whatever runs came before or come after, and every
    request it sends is the one request determined by f: the bytes and
    media type of f with the fixed prompt. *)
Theorem requests_isolated_across_runs (before after : list Run) (r : Run)
    (f : UploadedFile) :
  selected r = Some f ->
  nth_error (run_session (before ++ r :: after)) (List.length before)
  = Some (main r)
  /\ forall q, In q (requests (snd (main r))) ->
       q = (py "gemini-1.5-pro",
            [ Part {| mime_type := type f; data := getvalue f |};
              Text prompt ]).
Proof.
  intros Hsel. split.
  - unfold run_session. rewrite map_app, nth_error_app2;
      rewrite length_map; [|lia].
    now rewrite Nat.sub_diag.
  - destruct (page_requests (main_page_of r)) as [-> | [f' [Hsel' [_ ->]]]].
    + intros q [].
    + assert (f' = f) by congruence. subst f'.
      intros q [<- | []]. reflexivity.
Qed.

Lemma requests_isolated_across_runs_witness :
  map (fun page => requests (snd page))
    (run_session [ click_run sample_file (answering_service (py "one"));
                   click_run other_file (answering_service (py "two")) ])
  = [ [analysis_request sample_file]; [analysis_request other_file] ]
  /\ forall q,
       In q (requests (snd (main
         (click_run other_file (answering_service (py "two")))))) ->
       q = (py "gemini-1.5-pro",
            [ Part {| mime_type := py "image/jpeg"; data := [xff; xd8; xff] |};
              Text prompt ]).
Proof.
  split; [reflexivity|].
  exact (proj2 (@requests_isolated_across_runs
    [click_run sample_file (answering_service (py "one"))] []
    (click_run other_file (answering_service (py "two"))) other_file
    eq_refl)).
Defined.

(** ** Controls of a page *)

(** Every page holds one upload control, with the type list of the
    source. *)
Lemma page_uploader_types (r : Run) (page : M unit) :
  page_of r page -> uploader_types (snd page) = [upload_types].
Proof.
  intros [Hsel | f e Hsel Himg | f img e Hsel Himg Hshow
          | f img Hsel Himg Hshow Hclick
          | f img response l Hsel Himg Hshow Hclick Hresp [-> | ->]
          | f img e l Hsel Himg Hshow Hclick Hresp [-> | ->]];
    reflexivity.
Qed.

Lemma upload_types_accept (ext : str) :
  existsb (str_eqb ext) upload_types = true
  <-> ext = py "jpg" \/ ext = py "jpeg" \/ ext = py "png".
Proof.
  unfold upload_types. cbn [existsb].
  rewrite orb_false_r, !orb_true_iff. split.
  - intros [H | [H | H]]; apply str_eqb_eq in H; auto.
  - intros [-> | [-> | ->]]; rewrite str_eqb_refl; auto.
Qed.

(** The upload control of [main] hands over a given file exactly when
    the extension of its name is one of the three. *)
Lemma selected_accepts (r : Run) (f : UploadedFile) :
  picked r = Some f ->
  (selected r = Some f
   /\ exists ext, extension (name f) = Some ext
        /\ (ext = py "jpg" \/ ext = py "jpeg" \/ ext = py "png"))
  \/ (selected r = None
      /\ ~ exists ext, extension (name f) = Some ext
           /\ (ext = py "jpg" \/ ext = py "jpeg" \/ ext = py "png")).
Proof.
  intros Hpick. unfold selected, file_uploader. rewrite Hpick.
  destruct (extension (name f)) as [ext|] eqn:Hext.
  - destruct (existsb (str_eqb ext) upload_types) eqn:Hin.
    + left. split; [reflexivity|]. exists ext. split; [reflexivity|].
      now apply upload_types_accept.
    + right. split; [reflexivity|]. intros [ext' [Hext' Hin']].
      injection Hext' as <-. apply upload_types_accept in Hin'. congruence.
  - right. split; [reflexivity|]. intros [ext' [Hext' _]]. discriminate.
Qed.

(** C6.  The upload control accepts exactly the extensions jpg, jpeg and
    png.  Every page holds one upload control, declared with these three
    extensions and no other.  A file the user gives it whose name has one
    of these extensions is handed to the script: [main] opens it, and
    shows it when it decodes.  A file with any other extension, or with
    none, never reaches the script: the page is the placeholder page, as
    if no file had been given. *)
Theorem upload_extensions_exact (r : Run) (ext : str) :
  uploader_types (snd (main r)) = [ [py "jpg"; py "jpeg"; py "png"] ]
  /\ (offered (snd (main r)) ext
      <-> ext = py "jpg" \/ ext = py "jpeg" \/ ext = py "png")
  /\ (forall f, picked r = Some f -> extension (name f) = Some ext ->
        ext = py "jpg" \/ ext = py "jpeg" \/ ext = py "png" ->
        selected r = Some f
        /\ (forall e, Image_open r f = Raises e -> fst (main r) = Raises e)
        /\ (forall img, Image_open r f = Returns img ->
               image_shown r img = Returns tt ->
               In (ShowImage img (py "Your Meal") true) (snd (main r))))
  /\ (forall f, picked r = Some f ->
        ~ (exists x, extension (name f) = Some x
             /\ (x = py "jpg" \/ x = py "jpeg" \/ x = py "png")) ->
        selected r = None /\ main r = (Returns tt, idle_page)).
Proof.
  pose proof (page_uploader_types (main_page_of r)) as Htypes.
  split; [exact Htypes|]. split; [|split].
  - unfold offered. rewrite Htypes. split.
    + intros [types [[<- | []] Hin]].
      destruct Hin as [<- | [<- | [<- | []]]]; auto.
    + intros Hext. exists upload_types. split; [now left|].
      destruct Hext as [-> | [-> | ->]]; cbn; auto.
  - intros f Hpick Hext Hin.
    destruct (selected_accepts r Hpick) as [[Hsel _] | [_ Hno]].
    + split; [exact Hsel|]. split.
      * intros e Himg. now rewrite (main_undecodable r Hsel Himg).
      * intros img Himg Hshow.
        destruct (clicked r) eqn:Hclick.
        -- destruct (get_gemini_response (genai r) [blob_of f] prompt)
             as [[response|e] l] eqn:Hresp.
           ++ rewrite (main_analyzed r Hsel Himg Hshow Hclick Hresp).
              cbn [snd]. apply in_or_app. right. right. left. reflexivity.
           ++ rewrite (main_interrupted r Hsel Himg Hshow Hclick Hresp).
              cbn [snd]. apply in_or_app. right. right. left. reflexivity.
        -- rewrite (main_loaded r Hsel Himg Hshow Hclick).
           cbn [snd]. apply in_or_app. right. right. left. reflexivity.
    + exfalso. apply Hno. now exists ext.
  - intros f Hpick Hno.
    destruct (selected_accepts r Hpick) as [[_ Hyes] | [Hsel _]].
    + contradiction.
    + split; [exact Hsel|]. exact (main_idle r Hsel).
Qed.

Lemma upload_extensions_exact_witness :
  selected (click_run sample_file (answering_service (py "ok")))
  = Some sample_file
  /\ main (click_run disguised_program (answering_service (py "ok")))
     = (Returns tt, idle_page).
Proof.
  assert (Hpng : extension (name sample_file) = Some (py "png"))
    by (vm_compute; reflexivity).
  assert (Hexe : extension (name disguised_program) = Some (py "exe"))
    by (vm_compute; reflexivity).
  split.
  - destruct (upload_extensions_exact
      (click_run sample_file (answering_service (py "ok"))) (py "png"))
      as [_ [_ [Haccepted _]]].
    exact (proj1 (Haccepted sample_file eq_refl Hpng
                    (or_intror (or_intror eq_refl)))).
  - destruct (upload_extensions_exact
      (click_run disguised_program (answering_service (py "ok"))) (py "exe"))
      as [_ [_ [_ Hrefused]]].
    refine (proj2 (Hrefused disguised_program eq_refl _)).
    intros [x [Hx Hin]]. rewrite Hexe in Hx. injection Hx as <-.
    destruct Hin as [H | [H | H]]; vm_compute in H; discriminate H.
Defined.

(** Every button of a page is enabled. *)
Lemma page_buttons_enabled (r : Run) (page : M unit) :
  page_of r page ->
  forallb (fun ev => implb (is_button ev) (is_enabled_button ev)) (snd page)
  = true.
Proof.
  intros [Hsel | f e Hsel Himg | f img e Hsel Himg Hshow
          | f img Hsel Himg Hshow Hclick
          | f img response l Hsel Himg Hshow Hclick Hresp [-> | ->]
          | f img e l Hsel Himg Hshow Hclick Hresp [-> | ->]];
    reflexivity.
Qed.

(** C7.  On every page a button is present only if a file is selected,
    and every button present is enabled; on a file that decodes and is
    shown the page holds exactly one button; with no file selected the
    page is the placeholder page, which holds the placeholder and no
    image, button, spinner, success banner or service call. *)
Theorem action_control_needs_image (r : Run) :
  (existsb is_button (snd (main r)) = true -> selected r <> None)
  /\ forallb (fun ev => implb (is_button ev) (is_enabled_button ev))
       (snd (main r)) = true
  /\ (forall f img, selected r = Some f -> Image_open r f = Returns img ->
        image_shown r img = Returns tt ->
        List.length (filter is_enabled_button (snd (main r))) = 1)
  /\ (selected r = None ->
      main r = (Returns tt, idle_page)
      /\ In (Markdown placeholder_html true) idle_page
      /\ existsb (fun ev => is_image ev || is_button ev || is_success ev
                            || is_request ev
                            || match ev with
                               | EnterSpinner _ | ExitSpinner => true
                               | _ => false
                               end) idle_page = false
      /\ List.length (filter (fun ev => match ev with
                                        | Markdown _ _ => true
                                        | _ => false
                                        end) idle_page) = 5).
Proof.
  split; [|split; [|split]].
  - intros Hbutton Hsel. rewrite (main_idle r Hsel) in Hbutton.
    discriminate Hbutton.
  - apply (page_buttons_enabled (main_page_of r)).
  - intros f img Hsel Himg Hshow.
    destruct (main_page_of r)
      as [Hsel' | f' e Hsel' Himg' | f' img' e Hsel' Himg' Hshow'
          | f' img' Hsel' Himg' Hshow' Hclick
          | f' img' response l Hsel' Himg' Hshow' Hclick Hresp [-> | ->]
          | f' img' e l Hsel' Himg' Hshow' Hclick Hresp [-> | ->]];
      try reflexivity; congruence.
  - intros Hsel. split; [exact (main_idle r Hsel)|].
    split; [|split; reflexivity].
    unfold idle_page. apply in_or_app. right. right. left. reflexivity.
Qed.

Lemma action_control_needs_image_witness :
  selected (click_run sample_file (answering_service (py "ok"))) <> None
  /\ main (idle_run (answering_service (py "ok"))) = (Returns tt, idle_page).
Proof.
  split.
  - apply (proj1 (action_control_needs_image
      (click_run sample_file (answering_service (py "ok"))))).
    reflexivity.
  - apply (proj2 (proj2 (proj2 (action_control_needs_image
      (idle_run (answering_service (py "ok"))))))).
    reflexivity.
Defined.

(** C9.  Whenever the call wrapper returns on a clicked run with an
    image that decodes and is shown, be its result the text of the
    service or an error string, the page shows the success banner
    immediately followed by the embedded result; so a run whose external
    call raised an error still shows the banner, in front of the error
    text. *)
Theorem success_banner_unconditional (r : Run) (f : UploadedFile)
    (img : Image) (response : str) (l : list event) :
  selected r = Some f -> Image_open r f = Returns img ->
  image_shown r img = Returns tt -> clicked r = true ->
  get_gemini_response (genai r) [blob_of f] prompt = (Returns response, l) ->
  (exists before after : list event,
     snd (main r)
     = before ++ Success (py "✨ Analysis Complete!")
         :: Markdown (result_html response) true :: after
     /\ existsb is_success before = false)
  /\ (forall e l', external_call (genai r) [blob_of f] prompt = (Raises e, l') ->
        exn_is_Exception e = true ->
        exists m, exn_str e = Returns m /\ response = py "Error: " ++ m).
Proof.
  intros Hsel Himg Hshow Hclick Hresp. split.
  - rewrite (main_analyzed r Hsel Himg Hshow Hclick Hresp). cbn [snd].
    exists (page_top ++ EnterColumn 2 :: preview img
              ++ EnterSpinner (py "🤖 AI is analyzing your meal...") :: l),
           [ExitSpinner; ExitColumn 2; Markdown footer_html true].
    split.
    + unfold result_events. rewrite <- !app_assoc. cbn [app].
      rewrite <- !app_assoc. reflexivity.
    + destruct (get_gemini_response_log_cases _ _ _ Hresp) as [-> | ->];
        reflexivity.
  - intros e l' Hcall He.
    destruct (exn_str e) as [m|e'] eqn:Hstr.
    + exists m. split; [reflexivity|].
      rewrite (get_gemini_response_caught _ _ _ Hcall He Hstr) in Hresp.
      congruence.
    + rewrite (get_gemini_response_unprintable _ _ _ Hcall He Hstr) in Hresp.
      discriminate Hresp.
Qed.

Lemma success_banner_unconditional_witness :
  exists before after : list event,
    snd (main (click_run sample_file (failing_service rate_limited)))
    = before ++ Success (py "✨ Analysis Complete!")
        :: Markdown (result_html (py "Error: rate limited")) true :: after
    /\ existsb is_success before = false.
Proof.
  exact (proj1 (@success_banner_unconditional
    (click_run sample_file (failing_service rate_limited)) sample_file
    {| fp := sample_file |} (py "Error: rate limited")
    (request_log [blob_of sample_file] prompt)
    eq_refl eq_refl eq_refl eq_refl eq_refl)).
Defined.

(** * Further properties *)

(** ** Outcomes of the call wrapper *)

Lemma external_call_unbuilt (g : GenAI) (image : list Blob) (p : str)
    (e : exn) :
  GenerativeModel g (py "gemini-1.5-pro") = Raises e ->
  external_call g image p = (Raises e, []).
Proof.
  intros Hmodel. unfold external_call, new_GenerativeModel.
  rewrite Hmodel. reflexivity.
Qed.

Lemma external_call_answered (g : GenAI) (b : Blob) (rest : list Blob)
    (p : str) (resp : Response) :
  GenerativeModel g (py "gemini-1.5-pro") = Returns tt ->
  generate_content g (py "gemini-1.5-pro") [Part b; Text p] = Returns resp ->
  external_call g (b :: rest) p = (text resp, request_log [b] p).
Proof.
  intros Hmodel Hcall.
  unfold external_call, new_GenerativeModel, model_generate_content.
  rewrite Hmodel. cbn -[py]. rewrite Hcall. cbn -[py].
  destruct (text resp); reflexivity.
Qed.

(** What the wrapper raises passed its [except] clause or was raised in
    it. *)
Lemma get_gemini_response_raised (g : GenAI) (image : list Blob)
    (p : str) (e : exn) (l : list event) :
  get_gemini_response g image p = (Raises e, l) ->
  (exn_is_Exception e = false /\ external_call g image p = (Raises e, l))
  \/ (exists caught,
        external_call g image p = (Raises caught, l)
        /\ exn_is_Exception caught = true
        /\ exn_str caught = Raises e).
Proof.
  unfold get_gemini_response, try_except.
  destruct (external_call g image p) as [[a|e'] l']; [discriminate|].
  destruct (exn_is_Exception e') eqn:He'.
  - unfold bind, lift, ret.
    destruct (exn_str e') as [m|e''] eqn:Hstr; cbn [fst snd];
      rewrite !app_nil_r; intros H; [discriminate H|].
    injection H as -> ->. right. exists e'. now repeat split.
  - intros H. injection H as -> ->. left. now split.
Qed.



(** X2.  Called with an empty list of parts, the wrapper reports the
    index error of [image[0]] as text and sends nothing to the service. *)
Theorem empty_parts_reported_unsent (g : GenAI) (p : str) :
  GenerativeModel g (py "gemini-1.5-pro") = Returns tt ->
  get_gemini_response g [] p
  = (Returns (py "Error: list index out of range"), []).
Proof.
  intros Hmodel.
  assert (Hcall : external_call g [] p
                  = (Raises (Exn true (py "list index out of range")), [])).
  { unfold external_call, new_GenerativeModel. rewrite Hmodel. reflexivity. }
  rewrite (get_gemini_response_caught _ _ _ Hcall eq_refl eq_refl).
  vm_compute. reflexivity.
Qed.

Lemma empty_parts_reported_unsent_witness :
  get_gemini_response (answering_service (py "ok")) [] prompt
  = (Returns (py "Error: list index out of range"), []).
Proof.
  apply (@empty_parts_reported_unsent (answering_service (py "ok")) prompt).
  reflexivity.
Defined.

(** X3.  The wrapper uses the first part only: further parts of the list
    change neither its result nor the request it sends. *)
Theorem only_first_part_used (g : GenAI) (b : Blob) (rest : list Blob)
    (p : str) :
  get_gemini_response g (b :: rest) p = get_gemini_response g [b] p.
Proof. reflexivity. Qed.

(** X4.  When reading the text of the response raises an error deriving
    from Exception with message m, the wrapper returns Error: followed by
    m, after the request was sent. *)
Theorem unreadable_response_reported (g : GenAI) (b : Blob) (p : str)
    (resp : Response) (e : exn) (m : str) :
  GenerativeModel g (py "gemini-1.5-pro") = Returns tt ->
  generate_content g (py "gemini-1.5-pro") [Part b; Text p] = Returns resp ->
  text resp = Raises e ->
  exn_is_Exception e = true ->
  exn_str e = Returns m ->
  get_gemini_response g [b] p
  = (Returns (py "Error: " ++ m),
     [GenerateContent (py "gemini-1.5-pro") [Part b; Text p]]).
Proof.
  intros Hmodel Hcall Htext He Hstr.
  apply (@get_gemini_response_caught g [b] p e m); [|exact He|exact Hstr].
  rewrite (@external_call_answered g b [] p resp Hmodel Hcall), Htext.
  reflexivity.
Qed.

Lemma unreadable_response_reported_witness :
  get_gemini_response (blocked_service rate_limited) [blob_of sample_file]
    prompt
  = (Returns (py "Error: rate limited"),
     [GenerateContent (py "gemini-1.5-pro")
        [Part (blob_of sample_file); Text prompt]]).
Proof.
  exact (@unreadable_response_reported (blocked_service rate_limited)
    (blob_of sample_file) prompt {| text := Raises rate_limited |}
    rate_limited (py "rate limited")
    eq_refl eq_refl eq_refl eq_refl eq_refl).
Defined.

(** X5.  When the service answers and the text of the response can be
    read, the wrapper returns that text unchanged, after exactly one
    request holding the part and the prompt. *)
Theorem answer_returned_unchanged (g : GenAI) (b : Blob) (p : str)
    (resp : Response) (answer : str) :
  GenerativeModel g (py "gemini-1.5-pro") = Returns tt ->
  generate_content g (py "gemini-1.5-pro") [Part b; Text p] = Returns resp ->
  text resp = Returns answer ->
  get_gemini_response g [b] p
  = (Returns answer,
     [GenerateContent (py "gemini-1.5-pro") [Part b; Text p]]).
Proof.
  intros Hmodel Hcall Htext.
  apply get_gemini_response_returns.
  rewrite (@external_call_answered g b [] p resp Hmodel Hcall), Htext. reflexivity.
Qed.

Lemma answer_returned_unchanged_witness :
  get_gemini_response (answering_service (py "Error: not an error"))
    [blob_of sample_file] prompt
  = (Returns (py "Error: not an error"),
     [GenerateContent (py "gemini-1.5-pro")
        [Part (blob_of sample_file); Text prompt]]).
Proof.
  apply (@answer_returned_unchanged
    (answering_service (py "Error: not an error")) (blob_of sample_file)
    prompt {| text := Returns (py "Error: not an error") |}); reflexivity.
Defined.

(** ** Pages that are cut short, and pages without a call *)

Ltac page_cases r :=
  destruct (main_page_of r)
    as [Hsel' | f' e' Hsel' Himg' | f' img' e' Hsel' Himg' Hshow'
        | f' img' Hsel' Himg' Hshow' Hclick'
        | f' img' response' l' Hsel' Himg' Hshow' Hclick' Hresp' Hlog'
        | f' img' e' l' Hsel' Himg' Hshow' Hclick' Hresp' Hlog'].

(** X6.  A run of [main] raises in three ways only, each on a selected
    file: [Image.open] raised on the file; [Image.open] returned and
    [st.image] raised on the image; or the image was shown, the button
    was clicked and the call wrapper raised, which it does for an
    exception not deriving from Exception raised in its try block and for
    one raised by [str(e)] in its except clause. *)
Theorem main_raises_three_ways (r : Run) (e : exn) :
  fst (main r) = Raises e ->
  exists f, selected r = Some f
    /\ (Image_open r f = Raises e
        \/ exists img, Image_open r f = Returns img
             /\ (image_shown r img = Raises e
                 \/ (image_shown r img = Returns tt /\ clicked r = true
                     /\ exists l,
                          get_gemini_response (genai r) [blob_of f] prompt
                          = (Raises e, l)
                          /\ ((exn_is_Exception e = false
                               /\ external_call (genai r) [blob_of f] prompt
                                  = (Raises e, l))
                              \/ exists caught,
                                   external_call (genai r) [blob_of f] prompt
                                   = (Raises caught, l)
                                   /\ exn_is_Exception caught = true
                                   /\ exn_str caught = Raises e)))).
Proof.
  page_cases r; cbn [fst]; intros H; try discriminate H;
    injection H as ->; exists f'; (split; [assumption|]).
  - now left.
  - right. exists img'. split; [assumption|]. now left.
  - right. exists img'. split; [assumption|]. right.
    repeat (split; [assumption|]). exists l'. split; [assumption|].
    exact (get_gemini_response_raised _ _ _ Hresp').
Qed.

Lemma main_raises_three_ways_witness :
  exists f,
    selected (truncated_run sample_file truncated_image
                (answering_service (py "ok"))) = Some f
    /\ exists img,
         image_shown (truncated_run sample_file truncated_image
                        (answering_service (py "ok"))) img
         = Raises truncated_image.
Proof.
  destruct (@main_raises_three_ways
    (truncated_run sample_file truncated_image (answering_service (py "ok")))
    truncated_image eq_refl) as [f [Hsel _]].
  exists f. split; [exact Hsel|].
  exists {| fp := sample_file |}. reflexivity.
Defined.

(** X7.  A file that [Image.open] rejects cuts the page short, whatever
    the class of the exception: [main] raises it, the upload control is
    on the page, and neither image, button, spinner, banner nor service
    call is; the result column is closed and the footer is not reached. *)
Theorem undecodable_image_cuts_page (r : Run) (f : UploadedFile) (e : exn) :
  selected r = Some f -> Image_open r f = Raises e ->
  fst (main r) = Raises e
  /\ uploader_types (snd (main r)) = [upload_types]
  /\ existsb (fun ev => is_image ev || is_button ev || is_spinner ev
                        || is_success ev || is_request ev) (snd (main r))
     = false
  /\ last (snd (main r)) ExitSpinner = ExitColumn 2.
Proof.
  intros Hsel Himg. rewrite (main_undecodable r Hsel Himg).
  repeat split.
Qed.

Lemma undecodable_image_cuts_page_witness :
  fst (main (corrupt_run sample_file unidentified_image
               (answering_service (py "ok"))))
  = Raises unidentified_image.
Proof.
  apply (@undecodable_image_cuts_page
    (corrupt_run sample_file unidentified_image (answering_service (py "ok")))
    sample_file unidentified_image); reflexivity.
Defined.

(** X8.  Without a click no request is sent: the page of a run whose
    button was not clicked holds no service call, no spinner and no
    success banner, whatever file is selected. *)
Theorem no_click_no_request (r : Run) :
  clicked r = false ->
  requests (snd (main r)) = []
  /\ existsb (fun ev => is_spinner ev || is_success ev || is_request ev)
       (snd (main r)) = false.
Proof.
  intros Hclick. page_cases r; try congruence; split; reflexivity.
Qed.

Lemma no_click_no_request_witness :
  requests (snd (main (loaded_run sample_file (answering_service (py "ok")))))
  = [].
Proof.
  apply (@no_click_no_request
    (loaded_run sample_file (answering_service (py "ok")))).
  reflexivity.
Defined.

(** X9.  The footer closes exactly the pages [main] completes: the last
    entry of the page log is the footer if and only if [main] returns,
    and a run that raises ends with the result column being closed. *)
Theorem footer_iff_main_returns (r : Run) :
  (last (snd (main r)) ExitSpinner = Markdown footer_html true
   <-> fst (main r) = Returns tt)
  /\ (forall e, fst (main r) = Raises e ->
        last (snd (main r)) ExitSpinner = ExitColumn 2).
Proof.
  page_cases r; try destruct Hlog' as [-> | ->]; cbn [fst snd];
    (split; [split; intros H; (reflexivity || discriminate H)
            | intros e0 H; (reflexivity || discriminate H)]).
Qed.

(** X11.  When the model handle cannot be built (the constructor raises
    an error deriving from Exception with message m), a clicked run on
    an image that decodes and is shown sends no request at all and still
    shows the success banner, followed by the error text. *)
Theorem unbuilt_model_no_request_but_banner (r : Run) (f : UploadedFile)
    (img : Image) (e : exn) (m : str) :
  selected r = Some f -> Image_open r f = Returns img ->
  image_shown r img = Returns tt -> clicked r = true ->
  GenerativeModel (genai r) (py "gemini-1.5-pro") = Raises e ->
  exn_is_Exception e = true ->
  exn_str e = Returns m ->
  fst (main r) = Returns tt
  /\ requests (snd (main r)) = []
  /\ existsb is_success (snd (main r)) = true
  /\ In (Markdown (result_html (py "Error: " ++ m)) true)
        (snd (main r)).
Proof.
  intros Hsel Himg Hshow Hclick Hmodel He Hstr.
  pose proof (get_gemini_response_caught _ _ _
                (external_call_unbuilt _ [blob_of f] prompt Hmodel) He Hstr)
    as Hresp.
  rewrite (main_analyzed r Hsel Himg Hshow Hclick Hresp). cbn [fst snd].
  repeat split.
  apply in_or_app. right. right.
  apply in_or_app. right. right. right. left. reflexivity.
Qed.

Lemma unbuilt_model_no_request_but_banner_witness :
  requests (snd (main (click_run sample_file
                         (unbuildable_service rate_limited)))) = []
  /\ existsb is_success
       (snd (main (click_run sample_file
                     (unbuildable_service rate_limited)))) = true.
Proof.
  destruct (@unbuilt_model_no_request_but_banner
    (click_run sample_file (unbuildable_service rate_limited)) sample_file
    {| fp := sample_file |} rate_limited (py "rate limited")
    eq_refl eq_refl eq_refl eq_refl eq_refl eq_refl eq_refl)
    as [_ [Hreq [Hbanner _]]].
  split; assumption.
Defined.

(** ** Shape of the displayed text *)

Lemma subst_clean (c : char) :
  Forall (fun x => x <> 10%N /\ x <> 8226%N) (subst c).
Proof.
  unfold subst.
  destruct (c =? 10)%N eqn:Hnl.
  - vm_compute. repeat constructor; discriminate.
  - destruct (c =? 8226)%N eqn:Hb.
    + vm_compute. repeat constructor; discriminate.
    + apply N.eqb_neq in Hnl, Hb. repeat constructor; assumption.
Qed.

Lemma display_text_clean (s : str) :
  Forall (fun x => x <> 10%N /\ x <> 8226%N) (display_text s).
Proof.
  rewrite display_text_spec. unfold display_spec.
  induction s as [|c s IH]; [constructor|].
  cbn [flat_map]. apply Forall_app. split; [apply subst_clean|exact IH].
Qed.

Lemma display_text_no_newline (s : str) :
  count_occ N.eq_dec (display_text s) 10%N = 0.
Proof.
  apply count_occ_not_In. intros Hin.
  pose proof (display_text_clean s) as Hclean.
  rewrite Forall_forall in Hclean.
  now destruct (Hclean _ Hin).
Qed.

(** X12.  The displayed text holds no newline and no bullet glyph, so the
    response always sits on a single line of the markup. *)
Theorem display_text_is_one_line (response : str) :
  Forall (fun c => c <> 10%N /\ c <> 8226%N) (display_text response).
Proof. apply display_text_clean. Qed.

(** X13.  The display transform is idempotent: transforming a text that
    was already transformed changes nothing. *)
Theorem display_text_idempotent (response : str) :
  display_text (display_text response) = display_text response.
Proof. apply display_text_plain, display_text_clean. Qed.

(** X14.  The transform lengthens the text by three characters for every
    newline and by nothing else: a bullet is replaced by one glyph and a
    newline by the four characters of the break tag. *)
Theorem display_text_length (response : str) :
  List.length (display_text response)
  = List.length response + 3 * count_occ N.eq_dec response 10%N.
Proof.
  rewrite display_text_spec. unfold display_spec.
  induction response as [|c s IH]; [reflexivity|].
  cbn [flat_map count_occ List.length]. rewrite length_app, IH.
  unfold subst.
  destruct (N.eq_dec c 10) as [-> | Hnl].
  - cbn. lia.
  - apply N.eqb_neq in Hnl. rewrite Hnl.
    destruct (c =? 8226)%N; cbn; lia.
Qed.

(** X15.  Whatever the response, the markup handed to the page has
    exactly the four line breaks of the template: the response cannot add
    or remove a line of the markup. *)
Theorem result_html_has_template_lines (response : str) :
  count_occ N.eq_dec (result_html response) 10%N = 4.
Proof.
  unfold result_html.
  rewrite !count_occ_app, display_text_no_newline.
  vm_compute. reflexivity.
Qed.

(** ** What a page does not tell, and what a request does not carry *)

(** X16.  An error is shown exactly like an answer: a clicked run whose
    service call raises an error with message m renders the same page as
    a run whose service answers with the text Error: m; nothing on the
    page tells the two apart. *)
Theorem error_page_equals_answer_page (r1 r2 : Run) (f : UploadedFile)
    (img : Image) (e : exn) (m : str) (resp : Response) :
  selected r1 = Some f -> selected r2 = Some f ->
  Image_open r1 f = Returns img -> Image_open r2 f = Returns img ->
  image_shown r1 img = Returns tt -> image_shown r2 img = Returns tt ->
  clicked r1 = true -> clicked r2 = true ->
  GenerativeModel (genai r1) (py "gemini-1.5-pro") = Returns tt ->
  GenerativeModel (genai r2) (py "gemini-1.5-pro") = Returns tt ->
  generate_content (genai r1) (py "gemini-1.5-pro")
    [Part (blob_of f); Text prompt] = Raises e ->
  exn_is_Exception e = true ->
  exn_str e = Returns m ->
  generate_content (genai r2) (py "gemini-1.5-pro")
    [Part (blob_of f); Text prompt] = Returns resp ->
  text resp = Returns (py "Error: " ++ m) ->
  main r1 = main r2.
Proof.
  intros Hsel1 Hsel2 Himg1 Himg2 Hshow1 Hshow2 Hclick1 Hclick2
    Hmodel1 Hmodel2 Hcall1 He Hstr Hcall2 Htext.
  pose proof (get_gemini_response_caught _ _ _
                (external_call_raises _ _ _ Hmodel1 Hcall1) He Hstr)
    as Hresp1.
  assert (Hresp2 : get_gemini_response (genai r2) [blob_of f] prompt
                   = (Returns (py "Error: " ++ m),
                      request_log [blob_of f] prompt)).
  { apply get_gemini_response_returns.
    rewrite (@external_call_answered (genai r2) (blob_of f) [] prompt resp
               Hmodel2 Hcall2), Htext.
    reflexivity. }
  rewrite (main_analyzed r1 Hsel1 Himg1 Hshow1 Hclick1 Hresp1).
  rewrite (main_analyzed r2 Hsel2 Himg2 Hshow2 Hclick2 Hresp2).
  reflexivity.
Qed.

Lemma error_page_equals_answer_page_witness :
  main (click_run sample_file (failing_service rate_limited))
  = main (click_run sample_file
            (answering_service (py "Error: " ++ py "rate limited"))).
Proof.
  exact (@error_page_equals_answer_page
    (click_run sample_file (failing_service rate_limited))
    (click_run sample_file
       (answering_service (py "Error: " ++ py "rate limited")))
    sample_file {| fp := sample_file |} rate_limited (py "rate limited")
    {| text := Returns (py "Error: " ++ py "rate limited") |}
    eq_refl eq_refl eq_refl eq_refl eq_refl eq_refl eq_refl eq_refl
    eq_refl eq_refl eq_refl eq_refl eq_refl eq_refl eq_refl).
Defined.

Lemma main_decoded_requests (r : Run) (f : UploadedFile) (img : Image) :
  selected r = Some f -> Image_open r f = Returns img ->
  image_shown r img = Returns tt ->
  requests (snd (main r))
  = if clicked r
    then requests (snd (get_gemini_response (genai r) [blob_of f] prompt))
    else [].
Proof.
  intros Hsel Himg Hshow. destruct (clicked r) eqn:Hclick.
  - destruct (get_gemini_response (genai r) [blob_of f] prompt)
      as [[response|e] l] eqn:Hresp;
      destruct (get_gemini_response_log_cases _ _ _ Hresp) as [-> | ->].
    + now rewrite (main_analyzed r Hsel Himg Hshow Hclick Hresp).
    + now rewrite (main_analyzed r Hsel Himg Hshow Hclick Hresp).
    + now rewrite (main_interrupted r Hsel Himg Hshow Hclick Hresp).
    + now rewrite (main_interrupted r Hsel Himg Hshow Hclick Hresp).
  - now rewrite (main_loaded r Hsel Himg Hshow Hclick).
Qed.

(** X17.  The name of the uploaded file is never sent: two runs whose
    files agree on media type and bytes, and which agree on the click and
    on the service, send the same requests, whatever the files are
    called. *)
Theorem file_name_not_sent (r r' : Run) (f f' : UploadedFile)
    (img img' : Image) :
  selected r = Some f -> selected r' = Some f' ->
  type f = type f' -> getvalue f = getvalue f' ->
  Image_open r f = Returns img -> Image_open r' f' = Returns img' ->
  image_shown r img = Returns tt -> image_shown r' img' = Returns tt ->
  clicked r = clicked r' -> genai r = genai r' ->
  requests (snd (main r)) = requests (snd (main r')).
Proof.
  intros Hsel Hsel' Htype Hbytes Himg Himg' Hshow Hshow' Hclick Hgenai.
  rewrite (main_decoded_requests r Hsel Himg Hshow).
  rewrite (main_decoded_requests r' Hsel' Himg' Hshow').
  assert (Hblob : blob_of f = blob_of f')
    by (unfold blob_of; now rewrite Htype, Hbytes).
  now rewrite Hclick, Hgenai, Hblob.
Qed.

Lemma file_name_not_sent_witness :
  requests (snd (main (click_run sample_file (answering_service (py "ok")))))
  = requests
      (snd (main (click_run renamed_file (answering_service (py "ok"))))).
Proof.
  exact (@file_name_not_sent
    (click_run sample_file (answering_service (py "ok")))
    (click_run renamed_file (answering_service (py "ok")))
    sample_file renamed_file {| fp := sample_file |} {| fp := renamed_file |}
    eq_refl eq_refl eq_refl eq_refl eq_refl eq_refl eq_refl eq_refl
    eq_refl eq_refl).
Defined.

(** ** Sessions and the script *)

(** X18.  Over a whole session the service is called at most once per
    click on a selected file: the requests of the session are no more
    than the runs in which the button was clicked with a file selected. *)
Theorem session_requests_bounded_by_clicks (runs : list Run) :
  List.length (session_requests runs) <= List.length (clicks runs).
Proof.
  unfold session_requests, run_session, clicks.
  induction runs as [|r runs IH]; [reflexivity|].
  cbn [map flat_map filter]. rewrite length_app.
  destruct (page_requests (main_page_of r))
    as [-> | [f [Hsel [Hclick ->]]]].
  - cbn [List.length]. destruct (_ && _); cbn [List.length]; lia.
  - rewrite Hsel, Hclick. cbn. lia.
Qed.

(** X19.  Nothing is rendered before the API key was read and
    configured: if the log of the script holds any page entry, then the
    secrets lookup returned a key, the file ran as the main module, and
    the log is the dotenv load, one configuration with that key, and then
    the page of [main]; a missing key or an import renders nothing. *)
Theorem page_only_after_configure (h : Host) (r : Run) (ev : event) :
  In (Page ev) (snd (script h r)) ->
  exists api_key,
    secrets h (py "GOOGLE_API_KEY") = Returns api_key
    /\ module_name h = py "__main__"
    /\ script h r
       = (fst (main r),
          LoadDotenv :: Configure api_key :: map Page (snd (main r))).
Proof.
  unfold script.
  destruct (secrets h (py "GOOGLE_API_KEY")) as [api_key|e].
  - destruct (str_eqb (module_name h) (py "__main__")) eqn:Hname.
    + intros _. exists api_key. apply str_eqb_eq in Hname.
      destruct (main r) as [o l]. now repeat split.
    + cbn. intros [H | [H | []]]; discriminate H.
  - cbn. intros [H | []]. discriminate H.
Qed.

Lemma page_only_after_configure_witness :
  exists api_key,
    secrets sample_host (py "GOOGLE_API_KEY") = Returns api_key
    /\ module_name sample_host = py "__main__".
Proof.
  destruct (@page_only_after_configure sample_host
    (idle_run (answering_service (py "ok")))
    (Markdown footer_html true))
    as [api_key [Hkey [Hname _]]].
  - vm_compute. right. right. right. right. right. right. right. right.
    right. right. right. right. right. left. reflexivity.
  - exists api_key. split; assumption.
Defined.

(** ** What every page holds *)

Ltac in_log H :=
  unfold idle_page, page_top, preview, result_events, request_log in H;
  cbn [app In] in H;
  repeat (destruct H as [H | H];
          [ try discriminate H | ]);
  try contradiction.

(** X20.  The success banner is shown on completed pages only: a page
    holding the banner belongs to a run with a file selected and the
    button clicked, and [main] returned on it. *)
Theorem banner_only_on_completed_pages (r : Run) :
  existsb is_success (snd (main r)) = true ->
  fst (main r) = Returns tt /\ clicked r = true /\ selected r <> None.
Proof.
  page_cases r; try destruct Hlog' as [-> | ->]; cbn [fst snd];
    intros H; try discriminate H;
    (split; [reflexivity | split; [assumption | congruence]]).
Qed.

Lemma banner_only_on_completed_pages_witness :
  fst (main (click_run sample_file (failing_service rate_limited)))
  = Returns tt.
Proof.
  apply (@banner_only_on_completed_pages
    (click_run sample_file (failing_service rate_limited))).
  reflexivity.
Defined.

(** X21.  The page configuration is the first Streamlit call of every
    run and is made once, also on pages that are cut short. *)
Theorem page_config_first_and_once (r : Run) :
  exists rest,
    snd (main r)
    = SetPageConfig (py "Calorie Advisor") (py "🍽️") (py "wide")
        (py "collapsed") :: rest
    /\ existsb (fun ev => match ev with
                          | SetPageConfig _ _ _ _ => true
                          | _ => false
                          end) rest = false.
Proof.
  page_cases r; try destruct Hlog' as [-> | ->]; cbn [snd];
    unfold idle_page, page_top; cbn [app];
    eexists; (split; [reflexivity|reflexivity]).
Qed.

(** X22.  Raw HTML reaches the page from four places only: every
    markdown element with raw HTML allowed is the header, the placeholder
    or the footer of the source, or the result template around the
    transformed return value of the call wrapper; no file name, media
    type or other input is ever embedded as markup. *)
Theorem raw_html_sources (r : Run) (body : str) :
  In (Markdown body true) (snd (main r)) ->
  body = header_html \/ body = placeholder_html \/ body = footer_html
  \/ exists f response l,
       selected r = Some f
       /\ get_gemini_response (genai r) [blob_of f] prompt
          = (Returns response, l)
       /\ body = result_html response.
Proof.
  page_cases r; try destruct Hlog' as [-> | ->]; cbn [snd]; intros H;
    in_log H; injection H as <-;
    lazymatch goal with
    | |- ?x = ?x \/ _ => left; reflexivity
    | |- _ \/ ?x = ?x \/ _ => right; left; reflexivity
    | |- _ \/ _ \/ ?x = ?x \/ _ => right; right; left; reflexivity
    | |- _ =>
      right; right; right; exists f', response'; eexists;
      (split; [assumption | split; [eassumption | reflexivity]])
    end.
Qed.

Lemma raw_html_sources_witness :
  result_html (py "<i>x</i>") = header_html
  \/ result_html (py "<i>x</i>") = placeholder_html
  \/ result_html (py "<i>x</i>") = footer_html
  \/ exists f response l,
       selected (click_run sample_file (answering_service (py "<i>x</i>")))
       = Some f
       /\ get_gemini_response (answering_service (py "<i>x</i>"))
            [blob_of f] prompt = (Returns response, l)
       /\ result_html (py "<i>x</i>") = result_html response.
Proof.
  apply (@raw_html_sources
    (click_run sample_file (answering_service (py "<i>x</i>")))
    (result_html (py "<i>x</i>"))).
  rewrite (@main_analyzed
    (click_run sample_file (answering_service (py "<i>x</i>")))
    sample_file {| fp := sample_file |} (py "<i>x</i>")
    (request_log [blob_of sample_file] prompt)
    eq_refl eq_refl eq_refl eq_refl eq_refl).
  cbn [snd]. apply in_or_app. right. right.
  apply in_or_app. right. right.
  apply in_or_app. right.
  apply in_or_app. left. right. left. reflexivity.
Defined.
